(** * Weave API: Express route handlers, API-key middleware and the
    Domere thread ledger, shallowly embedded.

    Source files:
    - src/api/src/routes/domere.ts   (Domere REST routes)
    - src/unnamed/part_001           (Mund REST routes)
    - src/unnamed/part_000           (apiKeyAuth middleware)
    - src/api/src/adapters/openai.ts (function-calling adapter)
    - src/api/src/adapters/langchain.ts (LangChain tools)
    The Domere service class ([DomereService], imported from
    ../services/domere.js) is not part of the sources; the parts of it the
    development needs are modelled from the spec and marked as such. *)

From Stdlib Require Import String List ZArith Bool Lia DecimalString.
Import ListNotations.
Open Scope string_scope.
Set Warnings "-register-all".

(** ** JavaScript values *)
Module Js.

(** JSON values as they arrive in a parsed request body.  JavaScript
    numbers are modelled by integers (NaN and fractions do not occur in
    the properties studied here). *)
Inductive json : Type :=
| JNull
| JBool (b : bool)
| JNum (n : Z)
| JStr (s : string)
| JArr (xs : list json)
| JObj (fields : list (string * json)).

(** Property access on a parsed object (its keys are distinct after
    [JSON.parse]): [None] is [undefined]. *)
Fixpoint get (o : list (string * json)) (k : string) : option json :=
  match o with
  | [] => None
  | (k', v) :: o' => if String.eqb k k' then Some v else get o' k
  end.

(** JavaScript truthiness of a possibly [undefined] value: [undefined],
    [null], [false], [0] and [""] are falsy; arrays and objects (also the
    empty ones) are truthy. *)
Definition truthy (v : option json) : bool :=
  match v with
  | None => false
  | Some JNull => false
  | Some (JBool b) => b
  | Some (JNum n) => negb (Z.eqb n 0)
  | Some (JStr s) => negb (String.eqb s "")
  | Some (JArr _) => true
  | Some (JObj _) => true
  end.

(** A thrown value.  The services throw [Error] objects; a plain thrown
    string is kept for completeness. *)
Inductive thrown : Type :=
| ErrorObj (name message : string)
| ThrownString (s : string).

(** [String(error)]: [Error.prototype.toString] gives [name: message], or
    just [name] when the message is empty. *)
Definition to_String (e : thrown) : string :=
  match e with
  | ErrorObj n m => if String.eqb m "" then n else n ++ ": " ++ m
  | ThrownString s => s
  end.

(** [Number.prototype.toString] on an integer (decimal digits; JavaScript
    switches to exponent notation only from 10^21 on, beyond the integers
    modelled here). *)
Definition number_to_string (n : Z) : string :=
  NilZero.string_of_int (Z.to_int n).

(** [ToString] of a value, as [parseInt] applies it to its argument;
    [None] is the [TypeError] it throws.  Arrays are converted by
    [Array.prototype.join] (a [null] element gives [""]).  An object is
    converted by [ToPrimitive] with hint string: its [toString] is tried
    first, then its [valueOf].  A plain object without an own [toString]
    uses [Object.prototype.toString] and gives ["[object Object]"].  An own
    [toString] property holding a JSON value is not callable and is
    skipped; [valueOf] is then the own, not callable property or the
    inherited [Object.prototype.valueOf], which returns the object itself,
    not a primitive: [ToPrimitive] throws a [TypeError]. *)
Fixpoint to_primitive_string (v : json) : option string :=
  match v with
  | JNull => Some "null"
  | JBool b => Some (if b then "true" else "false")
  | JNum n => Some (number_to_string n)
  | JStr s => Some s
  | JArr xs =>
      (fix join (xs : list json) : option string :=
         match xs with
         | [] => Some ""
         | x :: xs' =>
             match (match x with JNull => Some "" | _ => to_primitive_string x end), xs' with
             | None, _ => None
             | Some s, [] => Some s
             | Some s, _ =>
                 match join xs' with
                 | Some t => Some (s ++ "," ++ t)
                 | None => None
                 end
             end
         end) xs
  | JObj fs =>
      match get fs "toString" with
      | None => Some "[object Object]"
      | Some _ => None
      end
  end.

(** The [TypeError] thrown by [ToPrimitive] (V8's message). *)
Definition to_primitive_error : thrown :=
  ErrorObj "TypeError" "Cannot convert object to primitive value".

(** The settled state of an awaited promise. *)
Inductive settled : Type :=
| Fulfilled (v : json)
| Rejected (e : thrown).

End Js.
Import Js.

(** ** Express responses and handler programs *)
Module Express.

Record response : Type := mk_response {
  status : Z;
  body : json
}.

(** [res.json(v)]: status stays at its default 200. *)
Definition res_json (v : json) : response := mk_response 200 v.

(** [res.status(s).json({ error: msg })] *)
Definition res_error (s : Z) (msg : string) : response :=
  mk_response s (JObj [("error", JStr msg)]).

(** An asynchronous handler that awaits requests of type [E], answered by
    values of type [X], and finishes with a result of type [R]. *)
Inductive prog (E X R : Type) : Type :=
| Done (r : R)
| Ask (e : E) (k : X -> prog E X R).
Arguments Done {E X R} r.
Arguments Ask {E X R} e k.

(** Run a program against an environment answering each request; the
    result records the requests in the order they were issued. *)
Fixpoint run {E X R} (env : E -> X) (p : prog E X R) : list E * R :=
  match p with
  | Done r => ([], r)
  | Ask e k => let (es, r) := run env (k (env e)) in (e :: es, r)
  end.

(** An Express request as the handlers read it. *)
Record request : Type := mk_request {
  params : list (string * string);
  query : list (string * json);
  req_body : list (string * json)
}.

Definition param (req : request) (k : string) : string :=
  match List.find (fun kv => String.eqb (fst kv) k) (params req) with
  | Some (_, v) => v
  | None => ""
  end.

End Express.
Import Express.

(** [try { const result = await call; res.json(result); }
     catch (error) { res.status(500).json({ error: String(error) }); }]
    A synchronous throw from the service method lands in the same catch
    clause, so it is covered by the [Rejected] case. *)
Definition await_json {E : Type} (c : E) : prog E settled response :=
  Ask c (fun s =>
    match s with
    | Fulfilled v => Done (res_json v)
    | Rejected e => Done (res_error 500 (to_String e))
    end).

(** ** Service requests issued by the route handlers *)

(** [parseInt] of the string its argument converts to; [parseInt] does
    not throw once the conversion succeeded, and the parsed number is kept
    symbolic. *)
Inductive parsed_limit : Type := ParseInt (s : string).

Inductive call : Type :=
(* DomereService *)
| CreateThread (origin_type origin_identity intent constraints metadata : option json)
| ListThreads (status origin_identity : option json) (limit : option parsed_limit)
| GetThread (id : string)
| AddHop (thread_id : string) (agent_id agent_type received_intent actions : option json)
| CloseThread (id : string) (outcome : option json)
| VerifyThread (id : string)
| AnalyzeIntent (content : option json)
| CheckDrift (original_intent current_intent constraints : option json)
| CompareIntents (intent1 intent2 : option json)
| DetectLanguage (content : option json)
| AnalyzeContent (content : option json)
| CheckInjection (content : option json)
| EstimateAnchorCost (network : option json)
| PrepareAnchor (thread_id network : option json)
| SubmitAnchor (network signed_transaction : option json)
| VerifyAnchor (network thread_id merkle_root : option json)
| GetAnchorStatus (thread_id : string)
(* MundService *)
| Scan (content scan_types : option json)
| ScanSecrets (content : option json)
| ScanPII (content : option json)
| ScanInjection (content : option json)
| ScanExfiltration (content : option json)
| AnalyzeCode (code language : option json)
| GetRules
| AddRule (rule : json)
| EnableRule (id : string)
| DisableRule (id : string)
| GetStats.

Definition handler : Type := request -> prog call settled response.

(** ** Domere routes (src/api/src/routes/domere.ts) *)
Module DomereRoutes.

(** POST /threads *)
Definition post_threads : handler := fun req =>
  let b := req_body req in
  let origin_type := get b "origin_type" in
  let origin_identity := get b "origin_identity" in
  let intent := get b "intent" in
  let constraints := get b "constraints" in
  let metadata := get b "metadata" in
  if negb (truthy origin_type) || negb (truthy origin_identity) || negb (truthy intent)
  then Done (res_error 400 "origin_type, origin_identity, and intent are required")
  else await_json (CreateThread origin_type origin_identity intent constraints metadata).

(** GET /threads *)
Definition get_threads : handler := fun req =>
  let q := query req in
  let status := get q "status" in
  let origin_identity := get q "origin_identity" in
  let limit := get q "limit" in
  (* [limit ? parseInt(limit as string) : undefined] is evaluated inside the
     [try] before [listThreads] is called: a [TypeError] of the string
     conversion goes to the [catch] clause without a service call. *)
  if truthy limit then
    match limit with
    | Some l =>
        match to_primitive_string l with
        | Some s => await_json (ListThreads status origin_identity (Some (ParseInt s)))
        | None => Done (res_error 500 (to_String to_primitive_error))
        end
    | None => await_json (ListThreads status origin_identity None)
    end
  else await_json (ListThreads status origin_identity None).

(** GET /threads/:id *)
Definition get_thread : handler := fun req =>
  await_json (GetThread (param req "id")).

(** POST /threads/:id/hops *)
Definition post_hops : handler := fun req =>
  let b := req_body req in
  let agent_id := get b "agent_id" in
  let agent_type := get b "agent_type" in
  let received_intent := get b "received_intent" in
  let actions := get b "actions" in
  if negb (truthy agent_id) || negb (truthy agent_type)
     || negb (truthy received_intent) || negb (truthy actions)
  then Done (res_error 400 "agent_id, agent_type, received_intent, and actions are required")
  else await_json (AddHop (param req "id") agent_id agent_type received_intent actions).

(** POST /threads/:id/close *)
Definition post_close : handler := fun req =>
  let outcome := get (req_body req) "outcome" in
  if negb (truthy outcome)
  then Done (res_error 400 "outcome is required (success, failure, abandoned)")
  else await_json (CloseThread (param req "id") outcome).

(** POST /threads/:id/verify *)
Definition post_verify : handler := fun req =>
  await_json (VerifyThread (param req "id")).

(** POST /intent/analyze *)
Definition post_intent_analyze : handler := fun req =>
  let content := get (req_body req) "content" in
  if negb (truthy content) then Done (res_error 400 "content is required")
  else await_json (AnalyzeIntent content).

(** POST /drift/check *)
Definition post_drift_check : handler := fun req =>
  let b := req_body req in
  let original_intent := get b "original_intent" in
  let current_intent := get b "current_intent" in
  let constraints := get b "constraints" in
  if negb (truthy original_intent) || negb (truthy current_intent)
  then Done (res_error 400 "original_intent and current_intent are required")
  else await_json (CheckDrift original_intent current_intent constraints).

(** POST /intent/compare *)
Definition post_intent_compare : handler := fun req =>
  let b := req_body req in
  let intent1 := get b "intent1" in
  let intent2 := get b "intent2" in
  if negb (truthy intent1) || negb (truthy intent2)
  then Done (res_error 400 "intent1 and intent2 are required")
  else await_json (CompareIntents intent1 intent2).

(** POST /language/detect *)
Definition post_language_detect : handler := fun req =>
  let content := get (req_body req) "content" in
  if negb (truthy content) then Done (res_error 400 "content is required")
  else await_json (DetectLanguage content).

(** POST /language/analyze *)
Definition post_language_analyze : handler := fun req =>
  let content := get (req_body req) "content" in
  if negb (truthy content) then Done (res_error 400 "content is required")
  else await_json (AnalyzeContent content).

(** POST /injection/check *)
Definition post_injection_check : handler := fun req =>
  let content := get (req_body req) "content" in
  if negb (truthy content) then Done (res_error 400 "content is required")
  else await_json (CheckInjection content).

(** GET /anchor/estimate *)
Definition get_anchor_estimate : handler := fun req =>
  let network := get (query req) "network" in
  if negb (truthy network)
  then Done (res_error 400 "network query param is required (solana, ethereum)")
  else await_json (EstimateAnchorCost network).

(** POST /anchor/prepare *)
Definition post_anchor_prepare : handler := fun req =>
  let b := req_body req in
  let thread_id := get b "thread_id" in
  let network := get b "network" in
  if negb (truthy thread_id) || negb (truthy network)
  then Done (res_error 400 "thread_id and network are required")
  else await_json (PrepareAnchor thread_id network).

(** POST /anchor/submit *)
Definition post_anchor_submit : handler := fun req =>
  let b := req_body req in
  let network := get b "network" in
  let signed_transaction := get b "signed_transaction" in
  if negb (truthy network) || negb (truthy signed_transaction)
  then Done (res_error 400 "network and signed_transaction are required")
  else await_json (SubmitAnchor network signed_transaction).

(** POST /anchor/verify *)
Definition post_anchor_verify : handler := fun req =>
  let b := req_body req in
  let network := get b "network" in
  let thread_id := get b "thread_id" in
  let merkle_root := get b "merkle_root" in
  if negb (truthy network) || negb (truthy thread_id) || negb (truthy merkle_root)
  then Done (res_error 400 "network, thread_id, and merkle_root are required")
  else await_json (VerifyAnchor network thread_id merkle_root).

(** GET /anchor/:thread_id/status *)
Definition get_anchor_status : handler := fun req =>
  await_json (GetAnchorStatus (param req "thread_id")).

Definition routes : list handler :=
  [post_threads; get_threads; get_thread; post_hops; post_close; post_verify;
   post_intent_analyze; post_drift_check; post_intent_compare;
   post_language_detect; post_language_analyze; post_injection_check;
   get_anchor_estimate; post_anchor_prepare; post_anchor_submit;
   post_anchor_verify; get_anchor_status].

End DomereRoutes.

(** ** Mund routes (src/unnamed/part_001) *)
Module MundRoutes.

(** POST /scan *)
Definition post_scan : handler := fun req =>
  let b := req_body req in
  let content := get b "content" in
  let scan_types := get b "scan_types" in
  if negb (truthy content) then Done (res_error 400 "content is required")
  else await_json (Scan content scan_types).

(** POST /scan/secrets *)
Definition post_scan_secrets : handler := fun req =>
  let content := get (req_body req) "content" in
  if negb (truthy content) then Done (res_error 400 "content is required")
  else await_json (ScanSecrets content).

(** POST /scan/pii *)
Definition post_scan_pii : handler := fun req =>
  let content := get (req_body req) "content" in
  if negb (truthy content) then Done (res_error 400 "content is required")
  else await_json (ScanPII content).

(** POST /scan/injection *)
Definition post_scan_injection : handler := fun req =>
  let content := get (req_body req) "content" in
  if negb (truthy content) then Done (res_error 400 "content is required")
  else await_json (ScanInjection content).

(** POST /scan/exfiltration *)
Definition post_scan_exfiltration : handler := fun req =>
  let content := get (req_body req) "content" in
  if negb (truthy content) then Done (res_error 400 "content is required")
  else await_json (ScanExfiltration content).

(** POST /scan/code *)
Definition post_scan_code : handler := fun req =>
  let b := req_body req in
  let code := get b "code" in
  let language := get b "language" in
  if negb (truthy code) then Done (res_error 400 "code is required")
  else await_json (AnalyzeCode code language).

(** GET /rules *)
Definition get_rules : handler := fun _ => await_json GetRules.

(** POST /rules: the whole body is the rule. *)
Definition post_rules : handler := fun req =>
  await_json (AddRule (JObj (req_body req))).

(** PUT /rules/:id/enable *)
Definition put_rule_enable : handler := fun req =>
  await_json (EnableRule (param req "id")).

(** PUT /rules/:id/disable *)
Definition put_rule_disable : handler := fun req =>
  await_json (DisableRule (param req "id")).

(** GET /stats *)
Definition get_stats : handler := fun _ => await_json GetStats.

Definition routes : list handler :=
  [post_scan; post_scan_secrets; post_scan_pii; post_scan_injection;
   post_scan_exfiltration; post_scan_code; get_rules; post_rules;
   put_rule_enable; put_rule_disable; get_stats].

End MundRoutes.

(** ** API-key middleware (src/unnamed/part_000) *)
Module Auth.

(** Header values as Node delivers them: strings, [None] when absent. *)
Record headers : Type := mk_headers {
  x_api_key : option string;
  authorization : option string
}.

(** [String.prototype.replace] with a string pattern: only the first
    occurrence is replaced. *)
Fixpoint replace_first (pat rep s : string) : string :=
  if String.prefix pat s
  then rep ++ substring (String.length pat) (String.length s - String.length pat) s
  else match s with
       | EmptyString => s
       | String c s' => String c (replace_first pat rep s')
       end.

Definition str_truthy (v : option string) : bool :=
  match v with
  | None => false
  | Some s => negb (String.eqb s "")
  end.

(** [a || b] on possibly undefined strings. *)
Definition js_or (a b : option string) : option string :=
  if str_truthy a then a else b.

(** [req.headers['x-api-key'] ||
     req.headers['authorization']?.replace('Bearer ', '')] *)
Definition api_key (h : headers) : option string :=
  js_or (x_api_key h) (option_map (replace_first "Bearer " "") (authorization h)).

(** Strict inequality [!==] of two possibly undefined strings. *)
Definition strict_neq (a b : option string) : bool :=
  match a, b with
  | None, None => false
  | Some x, Some y => negb (String.eqb x y)
  | _, _ => true
  end.

Inductive outcome : Type :=
| Reply (r : response)
| Next.

(** [apiKeyAuth(req, res, next)]; [env] is [process.env.WEAVE_API_KEY]. *)
Definition apiKeyAuth (env : option string) (h : headers) : outcome :=
  let apiKey := api_key h in
  if negb (str_truthy apiKey) then Reply (res_error 401 "API key required")
  else if strict_neq apiKey env then Reply (res_error 403 "Invalid API key")
  else Next.

End Auth.

(** ** Thread ledger and chain engine *)
Module Ledger.

(** Error taxonomy of spec section 7. *)
Inductive error_kind : Type :=
| ValidationError
| NotFound
| Conflict
| IntegrityViolation
| AdapterError
| InternalError.

Record hop_fields : Type := mk_hop_fields {
  sequence_number : nat;
  agent_id : string;
  agent_type : string;
  received_intent : string;
  actions : list string;
  timestamp : Z
}.

Record hop : Type := mk_hop {
  fields : hop_fields;
  prev_hash : string;
  hash : string
}.

Inductive thread_status : Type := Open | Closed.

Record thread : Type := mk_thread {
  origin_type : string;
  origin_identity : string;
  intent : string;
  constraints : list string;
  status : thread_status;
  outcome : option string;
  hops : list hop;
  head_hash : string;
  created_at : Z;
  closed_at : option Z
}.

Record ledger : Type := mk_ledger {
  threads : list (nat * thread);
  next_id : nat
}.

Inductive verdict : Type :=
| Valid
| Broken (at_sequence : nat).

(** A hop as submitted to [add_hop], with the clock reading of the call. *)
Record hop_request : Type := mk_hop_request {
  rq_agent_id : string;
  rq_agent_type : string;
  rq_received_intent : string;
  rq_actions : list string;
  rq_now : Z
}.

Definition find_thread (L : ledger) (id : nat) : option thread :=
  match List.find (fun p => Nat.eqb (fst p) id) (threads L) with
  | Some (_, t) => Some t
  | None => None
  end.

Definition set_thread (L : ledger) (id : nat) (t : thread) : ledger :=
  mk_ledger (map (fun p => if Nat.eqb (fst p) id then (id, t) else p) (threads L))
            (next_id L).

Section Chain.

(** The hash function [H], the canonical encoding of hop fields and the
    deployment's genesis hash are parameters of the chain engine. *)
Variable H : string -> string.
Variable canonical_encode : hop_fields -> string.
Variable genesis_hash : string.

(** Modelled from the spec (section 4.1, Chain Engine [append]; the
    service is not in the sources):
    [hash = H(prev_hash || canonical_encode(fields))]. *)
Definition append (head : string) (f : hop_fields) : string :=
  H (head ++ canonical_encode f).

(** Modelled from the spec (section 4.1, Chain Engine [verify]): walk
    the hops from genesis, checking each [prev_hash] link and recomputed
    hash; report the first divergent sequence number. *)
Fixpoint verify_from (prev : string) (hs : list hop) : verdict :=
  match hs with
  | [] => Valid
  | h :: hs' =>
      if String.eqb (prev_hash h) prev && String.eqb (hash h) (append prev (fields h))
      then verify_from (hash h) hs'
      else Broken (sequence_number (fields h))
  end.

(** The hash a chain ends in, starting from [prev]. *)
Fixpoint chain_head (prev : string) (hs : list hop) : string :=
  match hs with
  | [] => prev
  | h :: hs' => chain_head (hash h) hs'
  end.

(** Modelled from the spec (section 4.3, [create_thread]). *)
Definition create_thread (L : ledger) (origin_type origin_identity intent : string)
    (constraints : list string) (now : Z) : error_kind + (nat * ledger) :=
  if String.eqb origin_type "" || String.eqb origin_identity "" || String.eqb intent ""
  then inl ValidationError
  else
    let id := next_id L in
    let t := mk_thread origin_type origin_identity intent constraints Open None []
               genesis_hash now None in
    inr (id, mk_ledger ((id, t) :: threads L) (S id)).

(** Modelled from the spec (section 4.3, [add_hop]): [NotFound] for an
    unknown thread, [Conflict] ([ThreadClosed]) for a closed one;
    otherwise the hop is chained onto [head_hash] and appended. *)
Definition add_hop (L : ledger) (id : nat) (rq : hop_request) : error_kind + (hop * ledger) :=
  match find_thread L id with
  | None => inl NotFound
  | Some t =>
      match status t with
      | Closed => inl Conflict
      | Open =>
          let f := mk_hop_fields (List.length (hops t)) (rq_agent_id rq) (rq_agent_type rq)
                     (rq_received_intent rq) (rq_actions rq) (rq_now rq) in
          let h := mk_hop f (head_hash t) (append (head_hash t) f) in
          let t' := mk_thread (origin_type t) (origin_identity t) (intent t) (constraints t)
                      (status t) (outcome t) (hops t ++ [h])%list (hash h) (created_at t)
                      (closed_at t) in
          inr (h, set_thread L id t')
      end
  end.

(** Modelled from the spec (section 4.3, [verify_thread]): delegates to
    the chain engine; the ledger is passed through unchanged. *)
Definition verify_thread (L : ledger) (id : nat) : (error_kind + verdict) * ledger :=
  match find_thread L id with
  | None => (inl NotFound, L)
  | Some t => (inr (verify_from genesis_hash (hops t)), L)
  end.

(** A sequence of [add_hop] calls on one thread, stopping at the first
    failure. *)
Fixpoint add_hops (L : ledger) (id : nat) (rqs : list hop_request) : error_kind + ledger :=
  match rqs with
  | [] => inr L
  | rq :: rqs' =>
      match add_hop L id rq with
      | inl e => inl e
      | inr (_, L') => add_hops L' id rqs'
      end
  end.

End Chain.
End Ledger.

(** ** Anchor submission *)
Module Anchoring.

(** Requests to the network adapter and its replies. *)
Inductive adapter_call : Type :=
| AdapterSubmit (network signed_transaction : option json).

Inductive adapter_reply : Type :=
| TxRef (tx_ref : string)
| AdapterRejected (detail : string).

(** Modelled from the spec (section 4.4, [DomereService.submitAnchor],
    not in the sources): the signed transaction is handed to the network
    adapter once; a rejection becomes a [SubmissionError] carrying the
    adapter's detail, with no retry. *)
Definition submitAnchor (network signed_transaction : option json)
    : prog adapter_call adapter_reply settled :=
  Ask (AdapterSubmit network signed_transaction) (fun r =>
    match r with
    | TxRef t => Done (Fulfilled (JObj [("status", JStr "submitted"); ("tx_ref", JStr t)]))
    | AdapterRejected d => Done (Rejected (ErrorObj "SubmissionError" d))
    end).

(** The service layer seen from the routes: [SubmitAnchor] runs
    [submitAnchor] against the adapter, every other request is answered
    by [other]. *)
Definition serve (adapter : adapter_call -> adapter_reply) (other : call -> settled)
    (c : call) : list adapter_call * settled :=
  match c with
  | SubmitAnchor n t => run adapter (submitAnchor n t)
  | _ => ([], other c)
  end.

(** Run a handler against the service layer, collecting the service
    requests and the adapter requests separately. *)
Fixpoint run_service (adapter : adapter_call -> adapter_reply) (other : call -> settled)
    (p : prog call settled response) : list call * list adapter_call * response :=
  match p with
  | Done r => ([], [], r)
  | Ask c k =>
      let (acs, s) := serve adapter other c in
      let '(cs, acs', r) := run_service adapter other (k s) in
      (c :: cs, (acs ++ acs')%list, r)
  end.

End Anchoring.

(** ** Function-calling adapter (src/api/src/adapters/openai.ts) *)
Module OpenAIAdapter.

(** Service calls made by [handleWeaveFunction]. *)
Inductive fn_call : Type :=
| FScan (content scan_types : option json)
| FScanSecrets (content : option json)
| FCheckInjection (content : option json)
| FRedact (content types : option json)
| FSandboxExecute (code language timeout : option json)
| FCheckDrift (original_intent current_intent constraints : option json)
| FCreateThread (args : json).

(** [args.k]: reading a property of [null] throws a [TypeError]; a
    missing property, or one read from a primitive or an array, is
    [undefined]. *)
Definition with_member {E X : Type} (args : json) (k : string)
    (f : option json -> prog E X settled) : prog E X settled :=
  match args with
  | JNull => Done (Rejected (ErrorObj "TypeError"
                     ("Cannot read properties of null (reading '" ++ k ++ "')")))
  | JObj fs => f (get fs k)
  | _ => f None
  end.

(** [return service.method(...)]: the returned promise settles as the
    service call does. *)
Definition forward (c : fn_call) : prog fn_call settled settled :=
  Ask c (fun s => Done s).

Definition str_prop (desc : string) : json :=
  JObj [("type", JStr "string"); ("description", JStr desc)].

Definition str_array (items : list (string * json)) (desc : string) : json :=
  JObj [("type", JStr "array"); ("items", JObj items); ("description", JStr desc)].

Definition enum_of (xs : list string) : json := JArr (map JStr xs).

Definition fn_decl (name description : string) (props : list (string * json))
    (required : list string) : json :=
  JObj [("name", JStr name); ("description", JStr description);
        ("parameters", JObj [("type", JStr "object"); ("properties", JObj props);
                             ("required", enum_of required)])].

(** [getWeaveFunctions()] *)
Definition getWeaveFunctions : list json :=
  [fn_decl "weave_scan_content"
     "Scan content for security threats including secrets, PII, injection attempts, and exfiltration patterns"
     [("content", str_prop "Content to scan");
      ("scan_types", str_array [("type", JStr "string");
                                ("enum", enum_of ["secrets"; "pii"; "injection"; "exfiltration"; "code"])]
                               "Types of scans to run (default: all)")]
     ["content"];
   fn_decl "weave_scan_secrets" "Scan content specifically for secrets and credentials"
     [("content", str_prop "Content to scan for secrets")] ["content"];
   fn_decl "weave_check_injection" "Check content for prompt injection and jailbreak attempts"
     [("content", str_prop "Content to check")] ["content"];
   fn_decl "weave_redact" "Redact sensitive information (PII, secrets) from content"
     [("content", str_prop "Content to redact");
      ("types", str_array [("type", JStr "string"); ("enum", enum_of ["pii"; "secrets"])]
                          "Types of data to redact")]
     ["content"];
   fn_decl "weave_sandbox_execute" "Execute code in a secure sandbox"
     [("code", str_prop "Code to execute");
      ("language", JObj [("type", JStr "string"); ("enum", enum_of ["javascript"; "python"]);
                         ("description", JStr "Programming language")]);
      ("timeout", JObj [("type", JStr "number");
                        ("description", JStr "Timeout in milliseconds (default: 5000)")])]
     ["code"; "language"];
   fn_decl "weave_check_drift" "Check if an interpretation has drifted from the original intent"
     [("original_intent", str_prop "The original intent/request");
      ("current_intent", str_prop "The current interpretation");
      ("constraints", str_array [("type", JStr "string")] "Constraints that should not be violated")]
     ["original_intent"; "current_intent"];
   fn_decl "weave_create_thread" "Create a new thread to track agent actions"
     [("origin_type", JObj [("type", JStr "string");
                            ("enum", enum_of ["human"; "system"; "scheduled"; "delegated"])]);
      ("origin_identity", str_prop "Identity of the origin");
      ("intent", str_prop "The intent to track");
      ("constraints", str_array [("type", JStr "string")] "Constraints")]
     ["origin_type"; "origin_identity"; "intent"]].

(** [fn.k] on a declaration object ([null] stands for [undefined], which
    does not arise: every declaration has the three fields). *)
Definition member_or_null (fn : json) (k : string) : json :=
  match fn with
  | JObj fs => match get fs k with Some v => v | None => JNull end
  | _ => JNull
  end.

(** [getGeminiFunctionDeclarations()] *)
Definition getGeminiFunctionDeclarations : json :=
  JObj [("functionDeclarations",
         JArr (map (fun fn => JObj [("name", member_or_null fn "name");
                                    ("description", member_or_null fn "description");
                                    ("parameters", member_or_null fn "parameters")])
                   getWeaveFunctions))].

(** [handleWeaveFunction(name, args)]; an unknown name throws inside the
    async function, so the returned promise rejects. *)
Definition handleWeaveFunction (name : string) (args : json) : prog fn_call settled settled :=
  if String.eqb name "weave_scan_content" then
    with_member args "content" (fun content =>
    with_member args "scan_types" (fun scan_types => forward (FScan content scan_types)))
  else if String.eqb name "weave_scan_secrets" then
    with_member args "content" (fun content => forward (FScanSecrets content))
  else if String.eqb name "weave_check_injection" then
    with_member args "content" (fun content => forward (FCheckInjection content))
  else if String.eqb name "weave_redact" then
    with_member args "content" (fun content =>
    with_member args "types" (fun types => forward (FRedact content types)))
  else if String.eqb name "weave_sandbox_execute" then
    with_member args "code" (fun code =>
    with_member args "language" (fun language =>
    with_member args "timeout" (fun timeout => forward (FSandboxExecute code language timeout))))
  else if String.eqb name "weave_check_drift" then
    with_member args "original_intent" (fun o =>
    with_member args "current_intent" (fun c =>
    with_member args "constraints" (fun cs => forward (FCheckDrift o c cs))))
  else if String.eqb name "weave_create_thread" then
    forward (FCreateThread args)
  else Done (Rejected (ErrorObj "Error" ("Unknown function: " ++ name))).

(** The [name] field of each declaration. *)
Definition decl_names (fns : list json) : list json :=
  map (fun fn => member_or_null fn "name") fns.

End OpenAIAdapter.

(** ** LangChain tools (src/api/src/adapters/langchain.ts) *)
Module LangChainAdapter.

Inductive tool_call : Type :=
| TScan (input : string)
| TScanSecrets (input : string)
| TScanInjection (input : string)
| TRedact (input : string)
| TSandboxExecute (code language : option json)
| TCheckDrift (original_intent current_intent constraints : option json)
| TCheckInjection (input : string).

(** [JSON.stringify(v)], kept symbolic. *)
Inductive tool_out : Type := Stringified (v : json).

(** How the promise returned by a tool's [call] settles. *)
Inductive tool_result : Type :=
| ToolResolved (s : tool_out)
| ToolRejected (e : thrown).

Definition tool_prog : Type := prog tool_call settled tool_result.

(** [const result = await service.m(input); return JSON.stringify(result);]
    with no try: a rejection propagates. *)
Definition await_stringify (c : tool_call) : tool_prog :=
  Ask c (fun s =>
    match s with
    | Fulfilled r => Done (ToolResolved (Stringified r))
    | Rejected e => Done (ToolRejected e)
    end).

(** WeaveMundTool, WeaveMundSecretsTool, WeaveMundInjectionTool,
    WeaveHordRedactTool and WeaveDomereInjectionTool. *)
Definition mund_scan_call (input : string) : tool_prog := await_stringify (TScan input).
Definition mund_secrets_call (input : string) : tool_prog := await_stringify (TScanSecrets input).
Definition mund_injection_call (input : string) : tool_prog := await_stringify (TScanInjection input).
Definition hord_redact_call (input : string) : tool_prog := await_stringify (TRedact input).
Definition domere_injection_call (input : string) : tool_prog :=
  await_stringify (TCheckInjection input).

(** [const { a, b } = v]: destructuring [null] throws a [TypeError];
    from a primitive or an array the fields are [undefined]. *)
Definition destructure (v : json) : option (list (string * json)) :=
  match v with
  | JNull => None
  | JObj fs => Some fs
  | _ => Some []
  end.

Section Tools.

(** [JSON.parse]: [None] when it throws a [SyntaxError]. *)
Variable json_parse : string -> option json.

(** [try { ...; return JSON.stringify(result); }
     catch (e) { return JSON.stringify({ error: msg }); }] *)
Definition guarded (msg : string) (body : list (string * json) -> tool_prog)
    (input : string) : tool_prog :=
  let fail := Done (ToolResolved (Stringified (JObj [("error", JStr msg)]))) in
  match option_map destructure (json_parse input) with
  | Some (Some fs) => body fs
  | _ => fail
  end.

Definition sandbox_error_msg : string :=
  "Invalid input. Expected JSON with code and language.".

Definition drift_error_msg : string :=
  "Invalid input. Expected JSON with original_intent and current_intent.".

(** A rejection of the awaited call lands in the tool's own catch. *)
Definition await_or_error (msg : string) (c : tool_call) : tool_prog :=
  Ask c (fun s =>
    match s with
    | Fulfilled r => Done (ToolResolved (Stringified r))
    | Rejected _ => Done (ToolResolved (Stringified (JObj [("error", JStr msg)])))
    end).

(** WeaveHordSandboxTool.call *)
Definition hord_sandbox_call : string -> tool_prog :=
  guarded sandbox_error_msg (fun fs =>
    let code := get fs "code" in
    let language := get fs "language" in
    await_or_error sandbox_error_msg
      (TSandboxExecute code (if truthy language then language else Some (JStr "javascript")))).

(** WeaveDomereDriftTool.call *)
Definition domere_drift_call : string -> tool_prog :=
  guarded drift_error_msg (fun fs =>
    await_or_error drift_error_msg
      (TCheckDrift (get fs "original_intent") (get fs "current_intent") (get fs "constraints"))).

End Tools.

End LangChainAdapter.

(** ** Properties of the route handlers *)
Module RouteFacts.
Import DomereRoutes.
Local Open Scope Z_scope.

Definition all_routes : list handler := DomereRoutes.routes ++ MundRoutes.routes.

(** The response a handler sends once its awaited service call settles. *)
Definition settle_response (s : settled) : response :=
  match s with
  | Fulfilled v => res_json v
  | Rejected e => res_error 500 (to_String e)
  end.

(** The messages of the routes' own required-field checks. *)
Definition validation_messages : list string :=
  ["origin_type, origin_identity, and intent are required";
   "agent_id, agent_type, received_intent, and actions are required";
   "outcome is required (success, failure, abandoned)";
   "content is required";
   "original_intent and current_intent are required";
   "intent1 and intent2 are required";
   "network query param is required (solana, ethereum)";
   "thread_id and network are required";
   "network and signed_transaction are required";
   "network, thread_id, and merkle_root are required";
   "code is required"].

(** [String(error)] of the [TypeError] thrown by [parseInt(limit)]. *)
Definition limit_type_error : string := to_String to_primitive_error.

(** GET /threads received a truthy [limit] that cannot be converted to a
    string. *)
Definition unconvertible_limit (req : request) : Prop :=
  exists l, get (query req) "limit" = Some l /\ truthy (Some l) = true /\
            to_primitive_string l = None.

(** Every handler either answers 400 itself with one of the validation
    messages, or (GET /threads only) answers 500 when [parseInt(limit)]
    throws, or makes exactly one service call and reports how it
    settled. *)
Definition route_shape (r : handler) (req : request) : Prop :=
  (exists msg, In msg validation_messages /\ r req = Done (res_error 400 msg)) \/
  (r = get_threads /\ unconvertible_limit req /\
   r req = Done (res_error 500 limit_type_error)) \/
  (exists c, r req = await_json c).

(** The names of the error kinds of the taxonomy (spec section 7). *)
Definition error_kind_names : list string :=
  ["ValidationError"; "NotFound"; "Conflict"; "IntegrityViolation";
   "AdapterError"; "InternalError"].

(** A response body carries a machine-readable error kind when one of its
    fields holds one of the taxonomy's names. *)
Definition carries_error_kind (b : json) : Prop :=
  exists fs k v, b = JObj fs /\ get fs k = Some (JStr v) /\ In v error_kind_names.

Definition missing_or_empty (v : option json) : Prop :=
  v = None \/ v = Some JNull \/ v = Some (JStr "").

Ltac split_guards :=
  repeat match goal with
  | |- context [if ?b then _ else _] => destruct b eqn:?
  | |- context [match ?o with Some _ => _ | None => _ end] => destruct o eqn:?
  end.

Ltac in_list := repeat first [left; reflexivity | right].

Lemma run_await_json (svc : call -> settled) (c : call) :
  run svc (await_json c) = ([c], settle_response (svc c)).
Proof. unfold await_json; simpl; destruct (svc c); reflexivity. Qed.

Lemma routes_shape (r : handler) (req : request) :
  In r all_routes -> route_shape r req.
Proof.
  unfold all_routes, DomereRoutes.routes, MundRoutes.routes; simpl.
  intros Hin;
  repeat (destruct Hin as [<- | Hin]);
  [.. | contradiction];
  unfold route_shape;
  cbv beta delta -[await_json res_error get truthy param to_primitive_string
                   to_String get_threads] iota zeta;
  try solve [split_guards;
             solve [left; eexists; split; [| reflexivity]; in_list
                   | right; right; eexists; reflexivity]].
  (* GET /threads *)
  unfold get_threads; cbv zeta.
  destruct (truthy (get (query req) "limit")) eqn:Ht;
    [| right; right; eexists; reflexivity].
  destruct (get (query req) "limit") as [l |] eqn:Hl;
    [| right; right; eexists; reflexivity].
  destruct (to_primitive_string l) as [s |] eqn:Hs;
    [right; right; eexists; reflexivity |].
  right; left; split; [reflexivity | split; [| reflexivity]].
  exists l; auto.
Qed.

Lemma run_shape (svc : call -> settled) (r : handler) (req : request) :
  route_shape r req ->
  (fst (run svc (r req)) = [] /\
   exists msg, In msg validation_messages /\ snd (run svc (r req)) = res_error 400 msg) \/
  (fst (run svc (r req)) = [] /\ r = get_threads /\ unconvertible_limit req /\
   snd (run svc (r req)) = res_error 500 limit_type_error) \/
  (exists c, run svc (r req) = ([c], settle_response (svc c))).
Proof.
  intros [[msg [Hm Hr]] | [[Hg [Hu Hr]] | [c Hr]]]; rewrite Hr.
  - left; split; [reflexivity | exists msg; split; [exact Hm | reflexivity]].
  - right; left; repeat split; assumption.
  - right; right; exists c; apply run_await_json.
Qed.

Lemma settle_response_status (s : settled) :
  status (settle_response s) = 200 \/ status (settle_response s) = 500.
Proof. destruct s; simpl; auto. Qed.

Lemma settle_response_error_body (s : settled) :
  status (settle_response s) <> 200 ->
  exists msg, body (settle_response s) = JObj [("error", JStr msg)].
Proof. destruct s as [v | e]; simpl; [congruence | eauto]. Qed.

Lemma truthy_missing_or_empty (v : option json) :
  missing_or_empty v -> truthy v = false.
Proof. intros [-> | [-> | ->]]; reflexivity. Qed.

Lemma truthy_nonempty_str (s : string) : s <> "" -> truthy (Some (JStr s)) = true.
Proof.
  intros Hs; simpl; destruct (String.eqb_spec s ""); [contradiction | reflexivity].
Qed.

End RouteFacts.

(** ** Claims about the HTTP surface *)
Module RouteClaims.
Import DomereRoutes RouteFacts.
Local Open Scope Z_scope.

(** Concrete inputs. *)
Definition req_t1 (b : list (string * json)) : request :=
  mk_request [("id", "t1")] [] b.

Definition svc_not_found : call -> settled :=
  fun _ => Rejected (ErrorObj "NotFound" "Thread t1 not found").

Definition svc_conflict : call -> settled :=
  fun _ => Rejected (ErrorObj "Conflict" "Thread t1 is already closed").

Definition svc_ok : call -> settled := fun _ => Fulfilled (JObj []).

(** C1 (counterexample): a [NotFound] thrown by the service for
    GET /threads/:id is answered with status 500, not 404. *)
Lemma get_thread_not_found_is_500 :
  snd (run svc_not_found (get_thread (req_t1 [])))
    = res_error 500 "NotFound: Thread t1 not found"
  /\ status (snd (run svc_not_found (get_thread (req_t1 [])))) = 500.
Proof. split; reflexivity. Qed.

(** C1 (as amended): on every Domere and Mund route, a response is one of
    - a 400 with one of the routes' validation messages, sent by the
      route's own required-field check before any service call;
    - on GET /threads only, a 500 with [String(error)] of the [TypeError]
      thrown by [parseInt(limit)] when the [limit] query value cannot be
      converted to a string (e.g. [?limit[toString]=1]), with no service
      call;
    - the outcome of exactly one service call: 200 with its result, or 500
      with [String(error)] for any error it throws, whatever its kind
      (NotFound and Conflict included).
    No route answers 404 or 409. *)
Theorem route_status_codes (r : handler) (svc : call -> settled) (req : request) :
  In r all_routes ->
  status (snd (run svc (r req))) <> 404 /\
  status (snd (run svc (r req))) <> 409 /\
  ((fst (run svc (r req)) = [] /\
    exists msg, In msg validation_messages /\ snd (run svc (r req)) = res_error 400 msg) \/
   (fst (run svc (r req)) = [] /\ r = get_threads /\ unconvertible_limit req /\
    snd (run svc (r req)) = res_error 500 limit_type_error) \/
   (exists c, fst (run svc (r req)) = [c] /\ snd (run svc (r req)) = settle_response (svc c))) /\
  (forall c e, fst (run svc (r req)) = [c] -> svc c = Rejected e ->
     snd (run svc (r req)) = res_error 500 (to_String e)).
Proof.
  intros Hin.
  destruct (run_shape svc r req (routes_shape r req Hin))
    as [[Hcs [msg [Hm Hr]]] | [[Hcs [Hg [Hu Hr]]] | [c Hrun]]].
  - rewrite Hr; simpl.
    split; [discriminate | split; [discriminate | split]].
    + left; split; [assumption | exists msg; split; [exact Hm | reflexivity]].
    + intros c e Hc; rewrite Hcs in Hc; discriminate.
  - rewrite Hr; simpl.
    split; [discriminate | split; [discriminate | split]].
    + right; left; repeat split; assumption.
    + intros c e Hc; rewrite Hcs in Hc; discriminate.
  - rewrite Hrun; simpl.
    destruct (settle_response_status (svc c)) as [Hs | Hs]; rewrite Hs;
    (split; [discriminate | split; [discriminate | split]]).
    + right; right; exists c; split; reflexivity.
    + intros c' e Hc Hsvc; injection Hc as <-; rewrite Hsvc; reflexivity.
    + right; right; exists c; split; reflexivity.
    + intros c' e Hc Hsvc; injection Hc as <-; rewrite Hsvc; reflexivity.
Qed.

Lemma route_status_codes_witness :
  In post_close all_routes /\
  snd (run svc_conflict (post_close (req_t1 [("outcome", JStr "success")])))
    = res_error 500 "Conflict: Thread t1 is already closed".
Proof.
  assert (Hin : In post_close all_routes) by (simpl; tauto).
  split; [exact Hin |].
  destruct (route_status_codes post_close svc_conflict
              (req_t1 [("outcome", JStr "success")]) Hin) as [_ [_ [_ H]]].
  apply (H (CloseThread "t1" (Some (JStr "success")))
           (ErrorObj "Conflict" "Thread t1 is already closed")); reflexivity.
Defined.

(** C3: POST /threads answers 400 without calling the service whenever
    [origin_type], [origin_identity] or [intent] is missing (or null) or
    the empty string; when all three are non-empty strings, the request is
    forwarded to [createThread] with exactly those values. *)
Theorem post_threads_validation (svc : call -> settled) (req : request) :
  (missing_or_empty (get (req_body req) "origin_type") \/
   missing_or_empty (get (req_body req) "origin_identity") \/
   missing_or_empty (get (req_body req) "intent") ->
   run svc (post_threads req)
     = ([], res_error 400 "origin_type, origin_identity, and intent are required")) /\
  (forall ot oi it : string,
   get (req_body req) "origin_type" = Some (JStr ot) ->
   get (req_body req) "origin_identity" = Some (JStr oi) ->
   get (req_body req) "intent" = Some (JStr it) ->
   ot <> "" -> oi <> "" -> it <> "" ->
   let c := CreateThread (Some (JStr ot)) (Some (JStr oi)) (Some (JStr it))
              (get (req_body req) "constraints") (get (req_body req) "metadata") in
   run svc (post_threads req) = ([c], settle_response (svc c))).
Proof.
  split.
  - intros Hm; unfold post_threads; cbv zeta.
    destruct Hm as [Hm | [Hm | Hm]]; rewrite (truthy_missing_or_empty _ Hm);
      simpl; [reflexivity | | ];
      destruct (truthy (get (req_body req) "origin_type")); simpl; try reflexivity;
      destruct (truthy (get (req_body req) "origin_identity")); reflexivity.
  - intros ot oi it Hot Hoi Hit Hot' Hoi' Hit' c.
    unfold post_threads; cbv zeta.
    rewrite Hot, Hoi, Hit, !truthy_nonempty_str by assumption; simpl.
    apply run_await_json.
Qed.

Lemma post_threads_validation_witness :
  run svc_ok (post_threads (req_t1 [("origin_type", JStr ""); ("intent", JStr "x")]))
    = ([], res_error 400 "origin_type, origin_identity, and intent are required") /\
  run svc_ok (post_threads (req_t1 [("origin_type", JStr "human");
                                    ("origin_identity", JStr "alice");
                                    ("intent", JStr "summarize")]))
    = ([CreateThread (Some (JStr "human")) (Some (JStr "alice")) (Some (JStr "summarize"))
          None None], res_json (JObj [])).
Proof.
  split.
  - apply (proj1 (post_threads_validation svc_ok
                    (req_t1 [("origin_type", JStr ""); ("intent", JStr "x")]))).
    left; right; right; reflexivity.
  - apply (proj2 (post_threads_validation svc_ok
                    (req_t1 [("origin_type", JStr "human");
                             ("origin_identity", JStr "alice");
                             ("intent", JStr "summarize")])) "human" "alice" "summarize");
      try reflexivity; discriminate.
Defined.

(** C4 (counterexample): the 400 answer of POST /threads to an empty body
    is [{ error: "origin_type, origin_identity, and intent are required" }];
    no field of it names an error kind of the taxonomy. *)
Lemma create_thread_400_has_no_kind :
  status (snd (run svc_ok (post_threads (req_t1 [])))) = 400 /\
  ~ carries_error_kind (body (snd (run svc_ok (post_threads (req_t1 []))))).
Proof.
  split; [reflexivity |].
  simpl; intros [fs [k [v [Heq [Hg Hin]]]]].
  injection Heq as <-; simpl in Hg.
  destruct (String.eqb k "error"); [| discriminate].
  injection Hg as <-; simpl in Hin; intuition discriminate.
Qed.

(** C4 (as amended): every error response of the HTTP surface has the body
    [{ error: msg }], a single human-readable string, with no
    machine-readable error kind.  For a non-200 answer of a Domere or Mund
    route, [msg] is
    - the route's fixed validation message (status 400, no service call);
    - on GET /threads only, [String(error)] of the [TypeError] thrown by
      [parseInt(limit)] (status 500, no service call);
    - [String(error)] of what the one service call threw (status 500).
    The API-key middleware answers either 401 ["API key required"] or 403
    ["Invalid API key"]. *)
Theorem error_bodies_single_error_field :
  (forall (r : handler) (svc : call -> settled) (req : request),
     In r all_routes -> status (snd (run svc (r req))) <> 200 ->
     (exists msg, body (snd (run svc (r req))) = JObj [("error", JStr msg)]) /\
     ((exists msg, In msg validation_messages /\
                   snd (run svc (r req)) = res_error 400 msg) \/
      (fst (run svc (r req)) = [] /\ r = get_threads /\
       snd (run svc (r req)) = res_error 500 limit_type_error) \/
      (exists c e, fst (run svc (r req)) = [c] /\ svc c = Rejected e /\
                   snd (run svc (r req)) = res_error 500 (to_String e)))) /\
  (forall (env : option string) (h : Auth.headers) (r : response),
     Auth.apiKeyAuth env h = Auth.Reply r ->
     r = res_error 401 "API key required" \/ r = res_error 403 "Invalid API key").
Proof.
  split.
  - intros r svc req Hin Hs.
    destruct (run_shape svc r req (routes_shape r req Hin))
      as [[_ [msg [Hm Hr]]] | [[Hcs [Hg [_ Hr]]] | [c Hrun]]].
    + rewrite Hr; split; [exists msg; reflexivity |].
      left; exists msg; split; [exact Hm | reflexivity].
    + rewrite Hr; split; [eexists; reflexivity |].
      right; left; repeat split; assumption.
    + rewrite Hrun in *; simpl in *.
      destruct (svc c) as [v | e] eqn:Hc; simpl in *; [contradiction |].
      split; [eexists; reflexivity |].
      right; right; exists c, e; repeat split; assumption.
  - intros env h r; unfold Auth.apiKeyAuth.
    destruct (negb (Auth.str_truthy (Auth.api_key h))).
    + intros Hr; injection Hr as <-; left; reflexivity.
    + destruct (Auth.strict_neq (Auth.api_key h) env); [| discriminate].
      intros Hr; injection Hr as <-; right; reflexivity.
Qed.

Lemma error_bodies_single_error_field_witness :
  body (snd (run svc_not_found (get_thread (req_t1 []))))
    = JObj [("error", JStr "NotFound: Thread t1 not found")] /\
  exists msg, body (snd (run svc_not_found (get_thread (req_t1 []))))
                 = JObj [("error", JStr msg)].
Proof.
  split; [reflexivity |].
  apply (proj1 (proj1 error_bodies_single_error_field get_thread svc_not_found (req_t1 [])
                  ltac:(simpl; tauto) ltac:(simpl; discriminate))).
Defined.

(** C9 (counterexample): an empty [actions] array is truthy in JavaScript,
    so POST /threads/:id/hops forwards it to [addHop] instead of answering
    400. *)
Lemma post_hops_empty_actions_forwarded :
  run svc_ok (post_hops (req_t1 [("agent_id", JStr "a1"); ("agent_type", JStr "llm");
                                 ("received_intent", JStr "summarize");
                                 ("actions", JArr [])]))
    = ([AddHop "t1" (Some (JStr "a1")) (Some (JStr "llm")) (Some (JStr "summarize"))
          (Some (JArr []))], res_json (JObj [])).
Proof. reflexivity. Qed.

(** C9 (as amended): POST /threads/:id/hops answers 400 without calling
    [addHop] exactly when one of [agent_id], [agent_type],
    [received_intent], [actions] is falsy in JavaScript (missing, null,
    false, 0 or the empty string); otherwise, empty arrays included, it
    calls [addHop] once with the values as given. *)
Theorem post_hops_validation (svc : call -> settled) (req : request) :
  let b := req_body req in
  (truthy (get b "agent_id") = false \/ truthy (get b "agent_type") = false \/
   truthy (get b "received_intent") = false \/ truthy (get b "actions") = false ->
   run svc (post_hops req)
     = ([], res_error 400 "agent_id, agent_type, received_intent, and actions are required")) /\
  (truthy (get b "agent_id") = true -> truthy (get b "agent_type") = true ->
   truthy (get b "received_intent") = true -> truthy (get b "actions") = true ->
   let c := AddHop (param req "id") (get b "agent_id") (get b "agent_type")
              (get b "received_intent") (get b "actions") in
   run svc (post_hops req) = ([c], settle_response (svc c))).
Proof.
  cbv zeta; unfold post_hops; cbv zeta; split.
  - intros [H | [H | [H | H]]]; rewrite H; simpl;
      repeat match goal with
             | |- context [truthy ?v] => destruct (truthy v)
             end; reflexivity.
  - intros H1 H2 H3 H4; rewrite H1, H2, H3, H4; simpl; apply run_await_json.
Qed.

Lemma post_hops_validation_witness :
  run svc_ok (post_hops (req_t1 [("agent_id", JStr "a1"); ("actions", JArr [])]))
    = ([], res_error 400 "agent_id, agent_type, received_intent, and actions are required").
Proof.
  apply (proj1 (post_hops_validation svc_ok
                  (req_t1 [("agent_id", JStr "a1"); ("actions", JArr [])]))).
  right; left; reflexivity.
Defined.

(** C10: POST /threads/:id/close forwards any non-empty [outcome] string,
    unchanged, to [closeThread]; values outside
    [success | failure | abandoned] are not rejected by the route. *)
Theorem post_close_forwards_outcome (svc : call -> settled) (req : request) (o : string) :
  get (req_body req) "outcome" = Some (JStr o) -> o <> "" ->
  run svc (post_close req)
    = ([CloseThread (param req "id") (Some (JStr o))],
       settle_response (svc (CloseThread (param req "id") (Some (JStr o))))) /\
  status (snd (run svc (post_close req))) <> 400.
Proof.
  intros Ho Hne; unfold post_close; cbv zeta.
  rewrite Ho, truthy_nonempty_str by assumption; cbn [negb].
  rewrite run_await_json; split; [reflexivity |].
  simpl; destruct (settle_response_status (svc (CloseThread (param req "id") (Some (JStr o)))))
    as [-> | ->]; discriminate.
Qed.

Lemma post_close_forwards_outcome_witness :
  run svc_ok (post_close (req_t1 [("outcome", JStr "exploded")]))
    = ([CloseThread "t1" (Some (JStr "exploded"))], res_json (JObj [])) /\
  status (snd (run svc_ok (post_close (req_t1 [("outcome", JStr "exploded")])))) <> 400.
Proof.
  apply (post_close_forwards_outcome svc_ok (req_t1 [("outcome", JStr "exploded")]) "exploded").
  - reflexivity.
  - discriminate.
Defined.

End RouteClaims.

(** ** Claims about the API-key middleware *)
Module AuthClaims.
Import Auth.

Lemma substring_full (t : string) : substring 0 (String.length t) t = t.
Proof. induction t as [| c t IH]; simpl; [reflexivity | now rewrite IH]. Qed.

Lemma replace_bearer (t : string) : replace_first "Bearer " "" ("Bearer " ++ t) = t.
Proof.
  simpl; rewrite Nat.sub_0_r.
  destruct t as [| c t]; simpl; [reflexivity | now rewrite substring_full].
Qed.

(** C8: with [WEAVE_API_KEY] unset, [apiKeyAuth] never calls [next()]: a
    request presenting no key gets 401, a request presenting a key (in
    [x-api-key], or as [Authorization: Bearer <key>]) gets 403. *)
Theorem apiKeyAuth_env_unset (h : headers) :
  apiKeyAuth None h <> Next /\
  (str_truthy (api_key h) = false ->
     apiKeyAuth None h = Reply (res_error 401 "API key required")) /\
  (str_truthy (api_key h) = true ->
     apiKeyAuth None h = Reply (res_error 403 "Invalid API key")) /\
  (x_api_key h = None -> authorization h = None ->
     apiKeyAuth None h = Reply (res_error 401 "API key required")) /\
  (forall k, x_api_key h = Some k -> k <> "" ->
     apiKeyAuth None h = Reply (res_error 403 "Invalid API key")) /\
  (forall t, x_api_key h = None -> authorization h = Some ("Bearer " ++ t) -> t <> "" ->
     apiKeyAuth None h = Reply (res_error 403 "Invalid API key")).
Proof.
  assert (Hgen : (str_truthy (api_key h) = false ->
                  apiKeyAuth None h = Reply (res_error 401 "API key required")) /\
                 (str_truthy (api_key h) = true ->
                  apiKeyAuth None h = Reply (res_error 403 "Invalid API key"))).
  { unfold apiKeyAuth; split; intros Ht; rewrite Ht; [reflexivity |].
    simpl; destruct (api_key h) as [k |]; [reflexivity | discriminate]. }
  destruct Hgen as [H401 H403].
  split; [| split; [exact H401 | split; [exact H403 | split; [| split]]]].
  - destruct (str_truthy (api_key h)) eqn:Ht;
      [rewrite (H403 eq_refl) | rewrite (H401 eq_refl)]; discriminate.
  - intros Hx Ha; apply H401; unfold api_key; rewrite Hx, Ha; reflexivity.
  - intros k Hx Hk; apply H403; unfold api_key, js_or; rewrite Hx; simpl.
    destruct (String.eqb_spec k ""); [contradiction |]; simpl.
    destruct (String.eqb_spec k ""); [contradiction | reflexivity].
  - intros t Hx Ha Ht; apply H403; unfold api_key, js_or; rewrite Hx, Ha.
    cbn [option_map str_truthy].
    rewrite replace_bearer; simpl.
    destruct (String.eqb_spec t ""); [contradiction | reflexivity].
Qed.

Lemma apiKeyAuth_env_unset_witness :
  apiKeyAuth None (mk_headers None (Some "Bearer secret"))
    = Reply (res_error 403 "Invalid API key").
Proof.
  destruct (apiKeyAuth_env_unset (mk_headers None (Some "Bearer secret")))
    as [_ [_ [_ [_ [_ H]]]]].
  apply (H "secret"); [reflexivity | reflexivity | discriminate].
Defined.

End AuthClaims.

(** ** Claims about the thread ledger *)
Module LedgerClaims.
Import Ledger.

Section Invariant.
Variable H : string -> string.
Variable canonical_encode : hop_fields -> string.
Variable genesis_hash : string.

(** An open thread whose stored chain verifies and whose [head_hash] is
    the end of that chain. *)
Definition thread_ok (t : thread) : Prop :=
  status t = Open /\
  verify_from H canonical_encode genesis_hash (hops t) = Valid /\
  head_hash t = chain_head genesis_hash (hops t).

Lemma chain_head_snoc (prev : string) (hs : list hop) (h : hop) :
  chain_head prev (hs ++ [h]) = hash h.
Proof. revert prev; induction hs as [| h' hs IH]; intros prev; simpl; auto. Qed.

Lemma verify_from_snoc (prev : string) (hs : list hop) (f : hop_fields) :
  verify_from H canonical_encode prev hs = Valid ->
  verify_from H canonical_encode prev
    (hs ++ [mk_hop f (chain_head prev hs)
                   (append H canonical_encode (chain_head prev hs) f)]) = Valid.
Proof.
  revert prev; induction hs as [| h hs IH]; intros prev Hv; simpl.
  - rewrite !String.eqb_refl; reflexivity.
  - simpl in Hv.
    destruct (String.eqb (prev_hash h) prev && String.eqb (hash h) (append H canonical_encode prev (fields h)));
      [apply IH; exact Hv | discriminate].
Qed.

Lemma find_set_same (L : ledger) (id : nat) (t t' : thread) :
  find_thread L id = Some t -> find_thread (set_thread L id t') id = Some t'.
Proof.
  unfold find_thread, set_thread; simpl.
  induction (threads L) as [| [k u] ps IH]; simpl; [discriminate |].
  destruct (Nat.eqb_spec k id) as [-> | Hne]; simpl.
  - rewrite Nat.eqb_refl; reflexivity.
  - destruct (Nat.eqb_spec k id); [contradiction |]; exact IH.
Qed.

Lemma add_hop_ok (L : ledger) (id : nat) (t : thread) (rq : hop_request) :
  find_thread L id = Some t -> thread_ok t ->
  exists h L' t', add_hop H canonical_encode L id rq = inr (h, L') /\
                  find_thread L' id = Some t' /\ thread_ok t'.
Proof.
  intros Hf [Hs [Hv Hh]].
  unfold add_hop; rewrite Hf, Hs.
  do 3 eexists; split; [reflexivity |]; split.
  - apply find_set_same with (t := t); exact Hf.
  - unfold thread_ok; simpl; split; [reflexivity |]; rewrite Hh; split.
    + apply verify_from_snoc; exact Hv.
    + rewrite chain_head_snoc; reflexivity.
Qed.

Lemma add_hops_ok (rqs : list hop_request) (L : ledger) (id : nat) (t : thread) :
  find_thread L id = Some t -> thread_ok t ->
  exists L' t', add_hops H canonical_encode L id rqs = inr L' /\
                find_thread L' id = Some t' /\ thread_ok t'.
Proof.
  revert L t; induction rqs as [| rq rqs IH]; intros L t Hf Hok; simpl.
  - exists L, t; auto.
  - destruct (add_hop_ok L id t rq Hf Hok) as [h [L' [t' [Ha [Hf' Hok']]]]].
    rewrite Ha; exact (IH L' t' Hf' Hok').
Qed.

Lemma create_thread_ok (L L1 : ledger) (ot oi it : string) (cs : list string) (now : Z)
    (id : nat) :
  create_thread genesis_hash L ot oi it cs now = inr (id, L1) ->
  exists t, find_thread L1 id = Some t /\ thread_ok t.
Proof.
  unfold create_thread.
  destruct (String.eqb ot "" || String.eqb oi "" || String.eqb it ""); [discriminate |].
  intros Hc; injection Hc as <- <-.
  eexists; split.
  - unfold find_thread; simpl; rewrite Nat.eqb_refl; reflexivity.
  - unfold thread_ok; simpl; auto.
Qed.

End Invariant.

(** C2 (modelled from the spec): after [create_thread] succeeds, every
    sequence of [add_hop] calls on the new thread succeeds and
    [verify_thread] then returns [Valid]; [verify_thread] never changes
    the ledger. *)
Theorem verify_after_appends (H : string -> string) (canonical_encode : hop_fields -> string)
    (genesis_hash : string) (L L1 : ledger) (ot oi it : string) (cs : list string)
    (now : Z) (id : nat) (rqs : list hop_request) :
  create_thread genesis_hash L ot oi it cs now = inr (id, L1) ->
  (exists L2, add_hops H canonical_encode L1 id rqs = inr L2 /\
              verify_thread H canonical_encode genesis_hash L2 id = (inr Valid, L2)) /\
  (forall L' id', snd (verify_thread H canonical_encode genesis_hash L' id') = L').
Proof.
  intros Hc; split.
  - destruct (create_thread_ok H canonical_encode genesis_hash L L1 ot oi it cs now id Hc) as [t [Hf Hok]].
    destruct (add_hops_ok H canonical_encode genesis_hash rqs L1 id t Hf Hok)
      as [L2 [t2 [Ha [Hf2 [_ [Hv _]]]]]].
    exists L2; split; [exact Ha |].
    unfold verify_thread; rewrite Hf2, Hv; reflexivity.
  - intros L' id'; unfold verify_thread; destruct (find_thread L' id'); reflexivity.
Qed.

Definition sample_hops : list hop_request :=
  [mk_hop_request "planner" "llm" "summarize the document" ["read"] 1;
   mk_hop_request "writer" "llm" "summarize and email" ["write"; "send"] 2].

Definition ledger_after_create : ledger :=
  mk_ledger [(0%nat, mk_thread "human" "alice" "summarize the document" []
                       Open None [] "genesis" 0 None)] 1.

Lemma verify_after_appends_witness :
  create_thread "genesis" (mk_ledger [] 0) "human" "alice" "summarize the document" [] 0
    = inr (0%nat, ledger_after_create) /\
  exists L2, add_hops (fun s => s) agent_id ledger_after_create 0 sample_hops = inr L2 /\
             verify_thread (fun s => s) agent_id "genesis" L2 0 = (inr Valid, L2).
Proof.
  split; [reflexivity |].
  apply (proj1 (verify_after_appends (fun s => s) agent_id "genesis" (mk_ledger [] 0)
                  ledger_after_create "human" "alice" "summarize the document" [] 0 0
                  sample_hops eq_refl)).
Defined.

End LedgerClaims.

(** ** Claims about anchor submission *)
Module AnchorClaims.
Import Anchoring DomereRoutes.
Local Open Scope Z_scope.

(** C5 (modelled from the spec for the service part): a request to
    POST /anchor/submit that passes the route's check reaches the network
    adapter's submit exactly once, with the signed transaction as given;
    an adapter rejection is answered 500 with the [SubmissionError] and
    the adapter's detail, without a second submit.  A request failing the
    check gets 400 and never reaches the adapter. *)
Theorem submit_anchor_single_attempt (adapter : adapter_call -> adapter_reply)
    (other : call -> settled) (req : request) :
  let n := get (req_body req) "network" in
  let t := get (req_body req) "signed_transaction" in
  (truthy n = true -> truthy t = true ->
     snd (fst (run_service adapter other (post_anchor_submit req))) = [AdapterSubmit n t] /\
     (forall d, adapter (AdapterSubmit n t) = AdapterRejected d ->
        snd (run_service adapter other (post_anchor_submit req))
          = res_error 500 (to_String (ErrorObj "SubmissionError" d)))) /\
  (truthy n = false \/ truthy t = false ->
     snd (fst (run_service adapter other (post_anchor_submit req))) = [] /\
     status (snd (run_service adapter other (post_anchor_submit req))) = 400).
Proof.
  cbv zeta; unfold post_anchor_submit; cbv zeta; split.
  - intros Hn Ht; rewrite Hn, Ht; simpl.
    destruct (adapter (AdapterSubmit (get (req_body req) "network")
                                     (get (req_body req) "signed_transaction")))
      as [tx | d'] eqn:Ha; simpl; split; try reflexivity;
      intros d Hd; first [discriminate Hd | injection Hd as ->; reflexivity].
  - intros [Hn | Ht]; [rewrite Hn | rewrite Ht; destruct (truthy (get (req_body req) "network"))];
      split; reflexivity.
Qed.

Definition adapter_rejects : adapter_call -> adapter_reply :=
  fun _ => AdapterRejected "insufficient fee".

Lemma submit_anchor_single_attempt_witness :
  run_service adapter_rejects (fun _ => Fulfilled JNull)
    (post_anchor_submit (mk_request [] [] [("network", JStr "solana");
                                          ("signed_transaction", JStr "0xdead")]))
  = ([SubmitAnchor (Some (JStr "solana")) (Some (JStr "0xdead"))],
     [AdapterSubmit (Some (JStr "solana")) (Some (JStr "0xdead"))],
     res_error 500 "SubmissionError: insufficient fee") /\
  snd (fst (run_service adapter_rejects (fun _ => Fulfilled JNull)
    (post_anchor_submit (mk_request [] [] [("network", JStr "solana");
                                          ("signed_transaction", JStr "0xdead")]))))
  = [AdapterSubmit (Some (JStr "solana")) (Some (JStr "0xdead"))].
Proof.
  split; [reflexivity |].
  apply (proj1 (submit_anchor_single_attempt adapter_rejects (fun _ => Fulfilled JNull)
                  (mk_request [] [] [("network", JStr "solana");
                                     ("signed_transaction", JStr "0xdead")])));
    reflexivity.
Defined.

End AnchorClaims.

(** ** Further properties of the route handlers *)
Module RouteExtras.
Import DomereRoutes RouteFacts.
Local Open Scope Z_scope.

Definition svc_echo : call -> settled := fun _ => Fulfilled (JBool true).

Definition req_of (q b : list (string * json)) : request :=
  mk_request [("id", "t7"); ("thread_id", "t7")] q b.

Ltac guards :=
  repeat match goal with
  | H : truthy _ = _ |- _ => rewrite H; clear H
  end;
  repeat match goal with
  | |- context [truthy ?v] => destruct (truthy v)
  end;
  cbn [negb orb]; first [reflexivity | apply run_await_json].

(** The handlers without a required-field check and without a conversion
    that can throw never answer 400: each request makes exactly one service
    call and reports how it settled. *)
Theorem unguarded_routes_always_call (r : handler) (svc : call -> settled) (req : request) :
  In r [get_thread; post_verify; get_anchor_status;
        MundRoutes.get_rules; MundRoutes.post_rules; MundRoutes.put_rule_enable;
        MundRoutes.put_rule_disable; MundRoutes.get_stats] ->
  exists c, run svc (r req) = ([c], settle_response (svc c)) /\
            status (snd (run svc (r req))) <> 400.
Proof.
  intros Hin; simpl in Hin;
  repeat (destruct Hin as [<- | Hin]); [.. | contradiction];
  cbv delta [get_thread post_verify get_anchor_status MundRoutes.get_rules
    MundRoutes.post_rules MundRoutes.put_rule_enable MundRoutes.put_rule_disable
    MundRoutes.get_stats] beta zeta;
  eexists; rewrite run_await_json; split; try reflexivity; simpl;
  match goal with
  | |- status (settle_response ?s) <> _ =>
      destruct (settle_response_status s) as [-> | ->]; discriminate
  end.
Qed.

Lemma unguarded_routes_always_call_witness :
  exists c, run svc_echo (MundRoutes.post_rules (req_of [] [])) = ([c], settle_response (svc_echo c))
            /\ status (snd (run svc_echo (MundRoutes.post_rules (req_of [] [])))) <> 400.
Proof. apply unguarded_routes_always_call; simpl; tauto. Defined.

(** GET /threads reads its filters from the query string; [limit] is
    passed as [parseInt(limit)] only when the raw value is truthy, so an
    absent or empty [limit] reaches the service as [undefined] while
    [limit=0] is forwarded. *)
Theorem get_threads_limit (svc : call -> settled) (req : request) :
  let q := query req in
  ((get q "limit" = None \/ get q "limit" = Some (JStr "")) ->
     fst (run svc (get_threads req)) = [ListThreads (get q "status") (get q "origin_identity") None]) /\
  (forall s, get q "limit" = Some (JStr s) -> s <> "" ->
     fst (run svc (get_threads req))
       = [ListThreads (get q "status") (get q "origin_identity") (Some (ParseInt s))]).
Proof.
  cbv zeta; unfold get_threads; cbv zeta; split.
  - intros [H | H]; rewrite H; cbn [truthy negb String.eqb];
      rewrite run_await_json; reflexivity.
  - intros s H Hs; rewrite H, truthy_nonempty_str by exact Hs.
    cbn [to_primitive_string]; rewrite run_await_json; reflexivity.
Qed.

Lemma get_threads_limit_witness :
  fst (run svc_echo (get_threads (req_of [("limit", JStr "0")] [])))
    = [ListThreads None None (Some (ParseInt "0"))].
Proof.
  apply (proj2 (get_threads_limit svc_echo (req_of [("limit", JStr "0")] [])) "0");
    [reflexivity | discriminate].
Defined.

(** GET /threads converts a truthy [limit] to a string before [parseInt]
    parses it.  When the conversion throws (an object from a query such as
    [?limit[toString]=1], whose own [toString] is not callable), the
    handler answers 500 with [String(error)] of the [TypeError] and makes no
    service call.  When it succeeds, [listThreads] is called once with
    [parseInt] of the converted string (an array such as [?limit=5&limit=7]
    converts to ["5,7"]).  A plain object converts to
    ["[object Object]"]; an object with an own [toString] field never
    converts. *)
Theorem get_threads_limit_conversion (svc : call -> settled) (req : request) :
  let q := query req in
  (unconvertible_limit req ->
     run svc (get_threads req) = ([], res_error 500 limit_type_error)) /\
  (forall l s, get q "limit" = Some l -> truthy (Some l) = true ->
     to_primitive_string l = Some s ->
     let c := ListThreads (get q "status") (get q "origin_identity") (Some (ParseInt s)) in
     run svc (get_threads req) = ([c], settle_response (svc c))) /\
  (forall fs, to_primitive_string (JObj fs) = None <-> get fs "toString" <> None).
Proof.
  cbv zeta; split; [| split].
  - intros [l [Hl [Ht Hs]]]; unfold get_threads; cbv zeta.
    rewrite Hl, Ht, Hs; reflexivity.
  - intros l s Hl Ht Hs; unfold get_threads; cbv zeta.
    rewrite Hl, Ht, Hs; apply run_await_json.
  - intros fs; simpl; destruct (get fs "toString"); split; congruence.
Qed.

Lemma get_threads_limit_conversion_witness :
  run svc_echo (get_threads (req_of [("limit", JObj [("toString", JStr "1")])] []))
    = ([], res_error 500 "TypeError: Cannot convert object to primitive value") /\
  run svc_echo (get_threads (req_of [("limit", JArr [JStr "5"; JStr "7"])] []))
    = ([ListThreads None None (Some (ParseInt "5,7"))], res_json (JBool true)).
Proof.
  split.
  - apply (proj1 (get_threads_limit_conversion svc_echo
                    (req_of [("limit", JObj [("toString", JStr "1")])] []))).
    exists (JObj [("toString", JStr "1")]); repeat split.
  - apply (proj1 (proj2 (get_threads_limit_conversion svc_echo
                    (req_of [("limit", JArr [JStr "5"; JStr "7"])] [])))
             (JArr [JStr "5"; JStr "7"]) "5,7"); reflexivity.
Defined.

(** The single-field routes that need [content] (intent analysis,
    language detection and analysis, injection check, and the Mund
    secrets, PII, injection and exfiltration scans). *)
Definition content_routes : list (handler * (option json -> call)) :=
  [(post_intent_analyze, AnalyzeIntent); (post_language_detect, DetectLanguage);
   (post_language_analyze, AnalyzeContent); (post_injection_check, CheckInjection);
   (MundRoutes.post_scan_secrets, ScanSecrets); (MundRoutes.post_scan_pii, ScanPII);
   (MundRoutes.post_scan_injection, ScanInjection);
   (MundRoutes.post_scan_exfiltration, ScanExfiltration)].

(** Each [content] route answers 400 "content is required" without a
    service call when [content] is falsy, and otherwise forwards it
    unchanged in exactly one service call. *)
Theorem content_routes_validation (r : handler) (mk : option json -> call)
    (svc : call -> settled) (req : request) :
  In (r, mk) content_routes ->
  (truthy (get (req_body req) "content") = false ->
     run svc (r req) = ([], res_error 400 "content is required")) /\
  (truthy (get (req_body req) "content") = true ->
     run svc (r req) = ([mk (get (req_body req) "content")],
                        settle_response (svc (mk (get (req_body req) "content"))))).
Proof.
  intros Hin; simpl in Hin;
  repeat (destruct Hin as [Hin | Hin]; [injection Hin as <- <- |]); [.. | contradiction];
  split; intros H; cbv delta [post_intent_analyze post_language_detect post_language_analyze
    post_injection_check MundRoutes.post_scan_secrets MundRoutes.post_scan_pii
    MundRoutes.post_scan_injection MundRoutes.post_scan_exfiltration] beta zeta;
  guards.
Qed.

Lemma content_routes_validation_witness :
  run svc_echo (MundRoutes.post_scan_pii (req_of [] [("content", JNum 0)]))
    = ([], res_error 400 "content is required").
Proof.
  apply (proj1 (content_routes_validation MundRoutes.post_scan_pii ScanPII svc_echo
                  (req_of [] [("content", JNum 0)]) ltac:(simpl; tauto)));
  reflexivity.
Defined.

(** POST /drift/check requires both intents; [constraints] is optional
    and forwarded as given ([undefined] when absent). *)
Theorem drift_check_validation (svc : call -> settled) (req : request) :
  let b := req_body req in
  (truthy (get b "original_intent") = false \/ truthy (get b "current_intent") = false ->
     run svc (post_drift_check req)
       = ([], res_error 400 "original_intent and current_intent are required")) /\
  (truthy (get b "original_intent") = true -> truthy (get b "current_intent") = true ->
     let c := CheckDrift (get b "original_intent") (get b "current_intent") (get b "constraints") in
     run svc (post_drift_check req) = ([c], settle_response (svc c))).
Proof.
  cbv zeta; unfold post_drift_check; cbv zeta; split;
  [intros [H | H] | intros H1 H2]; guards.
Qed.

Lemma drift_check_validation_witness :
  run svc_echo (post_drift_check (req_of [] [("original_intent", JStr "a");
                                             ("current_intent", JStr "b")]))
    = ([CheckDrift (Some (JStr "a")) (Some (JStr "b")) None], res_json (JBool true)).
Proof.
  apply (proj2 (drift_check_validation svc_echo
                  (req_of [] [("original_intent", JStr "a"); ("current_intent", JStr "b")])));
    reflexivity.
Defined.

(** GET /anchor/estimate reads [network] from the query string only: the
    request body never changes the outcome, and a falsy query value gives
    400 without a service call. *)
Theorem anchor_estimate_query_only (svc : call -> settled) (ps : list (string * string))
    (q b b' : list (string * json)) :
  run svc (get_anchor_estimate (mk_request ps q b))
    = run svc (get_anchor_estimate (mk_request ps q b')) /\
  (truthy (get q "network") = false ->
     run svc (get_anchor_estimate (mk_request ps q b))
       = ([], res_error 400 "network query param is required (solana, ethereum)")) /\
  (truthy (get q "network") = true ->
     run svc (get_anchor_estimate (mk_request ps q b))
       = ([EstimateAnchorCost (get q "network")],
          settle_response (svc (EstimateAnchorCost (get q "network"))))).
Proof.
  split; [reflexivity |].
  unfold get_anchor_estimate; cbv zeta; simpl query; split; intros H; guards.
Qed.

Lemma anchor_estimate_query_only_witness :
  run svc_echo (get_anchor_estimate (req_of [] [("network", JStr "solana")]))
    = ([], res_error 400 "network query param is required (solana, ethereum)").
Proof.
  apply (proj1 (proj2 (anchor_estimate_query_only svc_echo [("id", "t7"); ("thread_id", "t7")]
                         [] [("network", JStr "solana")] [])));
  reflexivity.
Defined.

(** POST /anchor/prepare and POST /anchor/verify take [thread_id] from
    the body (not from the path) and answer 400 without a service call
    when a required field is falsy; otherwise one call with the fields as
    given. *)
Theorem anchor_prepare_verify_validation (svc : call -> settled) (req : request) :
  let b := req_body req in
  (truthy (get b "thread_id") = false \/ truthy (get b "network") = false ->
     run svc (post_anchor_prepare req) = ([], res_error 400 "thread_id and network are required")) /\
  (truthy (get b "thread_id") = true -> truthy (get b "network") = true ->
     let c := PrepareAnchor (get b "thread_id") (get b "network") in
     run svc (post_anchor_prepare req) = ([c], settle_response (svc c))) /\
  (truthy (get b "network") = false \/ truthy (get b "thread_id") = false \/
   truthy (get b "merkle_root") = false ->
     run svc (post_anchor_verify req)
       = ([], res_error 400 "network, thread_id, and merkle_root are required")) /\
  (truthy (get b "network") = true -> truthy (get b "thread_id") = true ->
   truthy (get b "merkle_root") = true ->
     let c := VerifyAnchor (get b "network") (get b "thread_id") (get b "merkle_root") in
     run svc (post_anchor_verify req) = ([c], settle_response (svc c))).
Proof.
  cbv zeta; unfold post_anchor_prepare, post_anchor_verify; cbv zeta;
  split; [| split; [| split]];
  [intros [H | H] | intros H1 H2 | intros [H | [H | H]] | intros H1 H2 H3]; guards.
Qed.

Lemma anchor_prepare_verify_validation_witness :
  run svc_echo (post_anchor_verify (req_of [] [("network", JStr "ethereum");
                                               ("thread_id", JStr "t7")]))
    = ([], res_error 400 "network, thread_id, and merkle_root are required").
Proof.
  apply (proj1 (proj2 (proj2 (anchor_prepare_verify_validation svc_echo
           (req_of [] [("network", JStr "ethereum"); ("thread_id", JStr "t7")])))));
  right; right; reflexivity.
Defined.

(** POST /intent/compare requires both intents; POST /scan and
    POST /scan/code require their main field and forward the optional
    [scan_types] / [language] as given ([undefined] when absent). *)
Theorem compare_scan_code_validation (svc : call -> settled) (req : request) :
  let b := req_body req in
  (truthy (get b "intent1") = false \/ truthy (get b "intent2") = false ->
     run svc (post_intent_compare req) = ([], res_error 400 "intent1 and intent2 are required")) /\
  (truthy (get b "intent1") = true -> truthy (get b "intent2") = true ->
     let c := CompareIntents (get b "intent1") (get b "intent2") in
     run svc (post_intent_compare req) = ([c], settle_response (svc c))) /\
  (truthy (get b "content") = false ->
     run svc (MundRoutes.post_scan req) = ([], res_error 400 "content is required")) /\
  (truthy (get b "content") = true ->
     let c := Scan (get b "content") (get b "scan_types") in
     run svc (MundRoutes.post_scan req) = ([c], settle_response (svc c))) /\
  (truthy (get b "code") = false ->
     run svc (MundRoutes.post_scan_code req) = ([], res_error 400 "code is required")) /\
  (truthy (get b "code") = true ->
     let c := AnalyzeCode (get b "code") (get b "language") in
     run svc (MundRoutes.post_scan_code req) = ([c], settle_response (svc c))).
Proof.
  cbv zeta; unfold post_intent_compare, MundRoutes.post_scan, MundRoutes.post_scan_code;
  cbv zeta; split; [| split; [| split; [| split; [| split]]]];
  [intros [H | H] | intros H1 H2 | intros H .. ]; guards.
Qed.

Lemma compare_scan_code_validation_witness :
  run svc_echo (MundRoutes.post_scan_code (req_of [] [("code", JStr "x = 1")]))
    = ([AnalyzeCode (Some (JStr "x = 1")) None], res_json (JBool true)).
Proof.
  apply (proj2 (proj2 (proj2 (proj2 (proj2 (compare_scan_code_validation svc_echo
           (req_of [] [("code", JStr "x = 1")]))))))).
  reflexivity.
Defined.

End RouteExtras.

(** ** Further properties of the API-key middleware *)
Module AuthExtras.
Import Auth AuthClaims.

(** [pat] occurs somewhere in [s]. *)
Fixpoint occurs (pat s : string) : bool :=
  String.prefix pat s ||
  match s with
  | EmptyString => false
  | String _ s' => occurs pat s'
  end.

Lemma replace_first_absent (pat rep s : string) :
  occurs pat s = false -> replace_first pat rep s = s.
Proof.
  induction s as [| c s IH]; intros H; cbn [occurs replace_first] in *;
    apply orb_false_iff in H; destruct H as [Hp Hs]; rewrite Hp; [reflexivity |].
  rewrite IH by exact Hs; reflexivity.
Qed.

(** With [WEAVE_API_KEY] set to [k], [apiKeyAuth] calls [next()] exactly
    when the presented key equals [k] and [k] is non-empty. *)
Theorem apiKeyAuth_next_iff (k : string) (h : headers) :
  apiKeyAuth (Some k) h = Next <-> api_key h = Some k /\ k <> "".
Proof.
  unfold apiKeyAuth, strict_neq.
  destruct (api_key h) as [a |]; simpl.
  - destruct (String.eqb_spec a "") as [-> | Ha]; simpl.
    + split; [discriminate | intros [Heq Hk]; injection Heq as <-; contradiction].
    + destruct (String.eqb_spec a k) as [-> | Hne]; simpl.
      * split; [intros _; split; [reflexivity | exact Ha] | reflexivity].
      * split; [discriminate | intros [Heq _]; injection Heq as ->; contradiction].
  - split; [discriminate | intros [Heq _]; discriminate].
Qed.

Lemma apiKeyAuth_next_iff_witness :
  apiKeyAuth (Some "s3cret") (mk_headers (Some "s3cret") (Some "Bearer other")) = Next.
Proof. apply (apiKeyAuth_next_iff "s3cret"); split; [reflexivity | discriminate]. Defined.

(** Header precedence: a non-empty [x-api-key] is the key and the
    [Authorization] header is then ignored; an absent or empty
    [x-api-key] falls back to [Authorization] with its first
    ["Bearer "] removed. *)
Theorem api_key_precedence (h : headers) :
  (forall k, x_api_key h = Some k -> k <> "" -> api_key h = Some k) /\
  (x_api_key h = None \/ x_api_key h = Some "" ->
     api_key h = option_map (replace_first "Bearer " "") (authorization h)).
Proof.
  unfold api_key, js_or; split.
  - intros k Hx Hk; rewrite Hx; simpl.
    destruct (String.eqb_spec k ""); [contradiction | reflexivity].
  - intros [Hx | Hx]; rewrite Hx; reflexivity.
Qed.

Lemma api_key_precedence_witness :
  api_key (mk_headers (Some "") (Some "Bearer tok")) = Some "tok".
Proof. apply (proj2 (api_key_precedence (mk_headers (Some "") (Some "Bearer tok")))); right; reflexivity. Defined.

(** An [Authorization] value that does not contain ["Bearer "] is used
    whole as the key, and ["Bearer <k>"] yields [k]; either way a request
    carrying only that header passes when the configured key matches. *)
Theorem authorization_forms (k : string) :
  k <> "" ->
  (occurs "Bearer " k = false ->
     apiKeyAuth (Some k) (mk_headers None (Some k)) = Next) /\
  apiKeyAuth (Some k) (mk_headers None (Some ("Bearer " ++ k))) = Next.
Proof.
  intros Hk; split; [intros Ho |]; apply apiKeyAuth_next_iff; (split; [| exact Hk]);
    unfold api_key, js_or; cbn [x_api_key authorization option_map str_truthy].
  - rewrite replace_first_absent by exact Ho; reflexivity.
  - rewrite replace_bearer; reflexivity.
Qed.

Lemma authorization_forms_witness :
  apiKeyAuth (Some "s3cret") (mk_headers None (Some "s3cret")) = Next.
Proof. apply (proj1 (authorization_forms "s3cret" ltac:(discriminate))); reflexivity. Defined.

End AuthExtras.

(** ** Properties of the function-calling and LangChain adapters *)
Module AdapterExtras.
Import OpenAIAdapter LangChainAdapter.

(** Every function advertised by [getWeaveFunctions()] is dispatched by
    [handleWeaveFunction]: for any object of arguments, even one lacking
    the parameters the declaration lists as required, exactly one service
    call is made and the result settles as that call does. *)
Theorem declared_functions_dispatched (svc : fn_call -> settled) (name : string)
    (fs : list (string * json)) :
  In (JStr name) (decl_names getWeaveFunctions) ->
  exists c, run svc (handleWeaveFunction name (JObj fs)) = ([c], svc c).
Proof.
  simpl; intros Hin;
  repeat (destruct Hin as [Hin | Hin]; [injection Hin as <-; eexists; reflexivity |]);
  contradiction.
Qed.

Lemma declared_functions_dispatched_witness :
  exists c, run (fun _ => Fulfilled JNull) (handleWeaveFunction "weave_create_thread" (JObj []))
              = ([c], Fulfilled JNull).
Proof. apply declared_functions_dispatched; simpl; tauto. Defined.

(** A name not advertised by [getWeaveFunctions()] makes
    [handleWeaveFunction] reject with [Error: Unknown function: <name>]
    before any service call. *)
Theorem unknown_function_rejects (svc : fn_call -> settled) (name : string) (args : json) :
  ~ In (JStr name) (decl_names getWeaveFunctions) ->
  run svc (handleWeaveFunction name args)
    = ([], Rejected (ErrorObj "Error" ("Unknown function: " ++ name))).
Proof.
  intros Hn; unfold handleWeaveFunction;
  repeat match goal with
  | |- context [String.eqb name ?s] =>
      destruct (String.eqb_spec name s) as [-> | _];
        [exfalso; apply Hn; simpl; tauto |]
  end; reflexivity.
Qed.

Lemma unknown_function_rejects_witness :
  run (fun _ => Fulfilled JNull) (handleWeaveFunction "weave_delete_all" (JObj []))
    = ([], Rejected (ErrorObj "Error" "Unknown function: weave_delete_all")).
Proof.
  apply (unknown_function_rejects _ "weave_delete_all"); simpl; intuition discriminate.
Defined.



(** The LangChain tools without a try block (Mund scan, secrets and
    injection, Hord redact, Domere injection) pass the raw input string to
    exactly one service call; a rejection of that call propagates
    unchanged as the tool's rejection. *)
Theorem untried_tools_propagate (tool : string -> tool_prog) (mk : string -> tool_call)
    (svc : tool_call -> settled) (input : string) :
  In (tool, mk) [(mund_scan_call, TScan); (mund_secrets_call, TScanSecrets);
                 (mund_injection_call, TScanInjection); (hord_redact_call, TRedact);
                 (domere_injection_call, TCheckInjection)] ->
  fst (run svc (tool input)) = [mk input] /\
  (forall e, svc (mk input) = Rejected e -> snd (run svc (tool input)) = ToolRejected e) /\
  (forall r, svc (mk input) = Fulfilled r ->
     snd (run svc (tool input)) = ToolResolved (Stringified r)).
Proof.
  simpl; intros Hin;
  repeat (destruct Hin as [Hin | Hin]; [injection Hin as <- <- |]); [.. | contradiction];
  cbv delta [mund_scan_call mund_secrets_call mund_injection_call hord_redact_call
             domere_injection_call await_stringify] beta; simpl;
  (split; [destruct (svc _); reflexivity |]);
  split; intros x Hx; rewrite Hx; reflexivity.
Qed.

Lemma untried_tools_propagate_witness :
  snd (run (fun _ => Rejected (ErrorObj "Error" "scanner down")) (mund_secrets_call "k=1"))
    = ToolRejected (ErrorObj "Error" "scanner down").
Proof.
  apply (proj1 (proj2 (untried_tools_propagate mund_secrets_call TScanSecrets
                         (fun _ => Rejected (ErrorObj "Error" "scanner down")) "k=1"
                         ltac:(simpl; tauto)))).
  reflexivity.
Defined.

Definition tool_error (msg : string) : tool_result :=
  ToolResolved (Stringified (JObj [("error", JStr msg)])).

(** WeaveHordSandboxTool: the tool never rejects.  Unparsable input, or
    input parsing to [null], gives the error JSON without a service call.
    Otherwise exactly one [sandboxExecute] call is made, with [language]
    defaulting to ["javascript"] when falsy, and a rejection of that call
    is reported with the same error JSON as bad input.  For a parsed
    object the fields are its [code] and [language]; a parsed array or
    primitive (e.g. ["[]"] or ["5"]) has neither, so the call is
    [sandboxExecute(undefined, "javascript")]. *)
Theorem sandbox_tool_behaviour (json_parse : string -> option json)
    (svc : tool_call -> settled) (input : string) :
  (forall e, snd (run svc (hord_sandbox_call json_parse input)) <> ToolRejected e) /\
  ((json_parse input = None \/ json_parse input = Some JNull) ->
     run svc (hord_sandbox_call json_parse input) = ([], tool_error sandbox_error_msg)) /\
  (forall fs, json_parse input = Some (JObj fs) ->
     let lang := if truthy (get fs "language") then get fs "language"
                 else Some (JStr "javascript") in
     fst (run svc (hord_sandbox_call json_parse input))
       = [TSandboxExecute (get fs "code") lang] /\
     (forall e, svc (TSandboxExecute (get fs "code") lang) = Rejected e ->
        snd (run svc (hord_sandbox_call json_parse input)) = tool_error sandbox_error_msg)) /\
  (forall v, json_parse input = Some v -> v <> JNull -> (forall fs, v <> JObj fs) ->
     let c := TSandboxExecute None (Some (JStr "javascript")) in
     fst (run svc (hord_sandbox_call json_parse input)) = [c] /\
     (forall e, svc c = Rejected e ->
        snd (run svc (hord_sandbox_call json_parse input)) = tool_error sandbox_error_msg)).
Proof.
  unfold hord_sandbox_call, guarded; split; [| split; [| split]].
  - intros e; destruct (json_parse input) as [v |]; simpl; [| discriminate].
    destruct (destructure v) as [fs |]; simpl; [| discriminate].
    unfold await_or_error; simpl; destruct (svc _); discriminate.
  - intros [-> | ->]; reflexivity.
  - intros fs Hp; cbv zeta; rewrite Hp; simpl; unfold await_or_error; simpl.
    split; [destruct (svc _); reflexivity |].
    intros e He; rewrite He; reflexivity.
  - intros v Hp Hn Ho; cbv zeta; rewrite Hp.
    destruct v as [| b | n | t | xs | fs];
      [contradiction | .. | exfalso; exact (Ho fs eq_refl)];
      simpl; unfold await_or_error; simpl;
      (split; [destruct (svc _); reflexivity | intros e He; rewrite He; reflexivity]).
Qed.

Definition parse_demo (s : string) : option json :=
  if String.eqb s "null" then Some JNull
  else if String.eqb s "{code}" then Some (JObj [("code", JStr "1+1")])
  else if String.eqb s "[]" then Some (JArr [])
  else None.

Lemma sandbox_tool_behaviour_witness :
  fst (run (fun _ => Fulfilled JNull) (hord_sandbox_call parse_demo "{code}"))
    = [TSandboxExecute (Some (JStr "1+1")) (Some (JStr "javascript"))] /\
  run (fun _ => Fulfilled JNull) (hord_sandbox_call parse_demo "null")
    = ([], tool_error sandbox_error_msg) /\
  fst (run (fun _ => Fulfilled JNull) (hord_sandbox_call parse_demo "[]"))
    = [TSandboxExecute None (Some (JStr "javascript"))].
Proof.
  split; [| split].
  - apply (proj1 (proj1 (proj2 (proj2 (sandbox_tool_behaviour parse_demo (fun _ => Fulfilled JNull)
                                  "{code}"))) [("code", JStr "1+1")] eq_refl)).
  - apply (proj1 (proj2 (sandbox_tool_behaviour parse_demo (fun _ => Fulfilled JNull) "null"))).
    right; reflexivity.
  - apply (proj1 (proj2 (proj2 (proj2 (sandbox_tool_behaviour parse_demo
                                         (fun _ => Fulfilled JNull) "[]")))
                    (JArr []) eq_refl ltac:(discriminate) ltac:(discriminate))).
Defined.

(** WeaveDomereDriftTool: the tool never rejects.  Unparsable input, or
    input parsing to [null], gives its error JSON without a service call.
    Otherwise [checkDrift] is called once with the three fields as given,
    without checking that the intents are present, and a rejection of
    that call is reported with the same error JSON as bad input.  A parsed
    array or primitive has none of the fields, so the call is
    [checkDrift] with all three [undefined]. *)
Theorem drift_tool_behaviour (json_parse : string -> option json)
    (svc : tool_call -> settled) (input : string) :
  (forall e, snd (run svc (domere_drift_call json_parse input)) <> ToolRejected e) /\
  ((json_parse input = None \/ json_parse input = Some JNull) ->
     run svc (domere_drift_call json_parse input) = ([], tool_error drift_error_msg)) /\
  (forall fs, json_parse input = Some (JObj fs) ->
     let c := TCheckDrift (get fs "original_intent") (get fs "current_intent")
                (get fs "constraints") in
     fst (run svc (domere_drift_call json_parse input)) = [c] /\
     (forall e, svc c = Rejected e ->
        snd (run svc (domere_drift_call json_parse input)) = tool_error drift_error_msg)) /\
  (forall v, json_parse input = Some v -> v <> JNull -> (forall fs, v <> JObj fs) ->
     let c := TCheckDrift None None None in
     fst (run svc (domere_drift_call json_parse input)) = [c] /\
     (forall e, svc c = Rejected e ->
        snd (run svc (domere_drift_call json_parse input)) = tool_error drift_error_msg)).
Proof.
  unfold domere_drift_call, guarded; split; [| split; [| split]].
  - intros e; destruct (json_parse input) as [v |]; simpl; [| discriminate].
    destruct (destructure v) as [fs |]; simpl; [| discriminate].
    unfold await_or_error; simpl; destruct (svc _); discriminate.
  - intros [-> | ->]; reflexivity.
  - intros fs Hp; cbv zeta; rewrite Hp; simpl; unfold await_or_error; simpl.
    split; [destruct (svc _); reflexivity |].
    intros e He; rewrite He; reflexivity.
  - intros v Hp Hn Ho; cbv zeta; rewrite Hp.
    destruct v as [| b | n | t | xs | fs];
      [contradiction | .. | exfalso; exact (Ho fs eq_refl)];
      simpl; unfold await_or_error; simpl;
      (split; [destruct (svc _); reflexivity | intros e He; rewrite He; reflexivity]).
Qed.

Lemma drift_tool_behaviour_witness :
  run (fun _ => Fulfilled JNull) (domere_drift_call parse_demo "not json")
    = ([], tool_error drift_error_msg) /\
  run (fun _ => Rejected (ErrorObj "Error" "down")) (domere_drift_call parse_demo "[]")
    = ([TCheckDrift None None None], tool_error drift_error_msg).
Proof.
  split.
  - apply (proj1 (proj2 (drift_tool_behaviour parse_demo (fun _ => Fulfilled JNull) "not json"))).
    left; reflexivity.
  - destruct (proj2 (proj2 (proj2 (drift_tool_behaviour parse_demo
                                     (fun _ => Rejected (ErrorObj "Error" "down")) "[]")))
                (JArr []) eq_refl ltac:(discriminate) ltac:(discriminate)) as [H1 H2].
    rewrite <- H1, <- (H2 (ErrorObj "Error" "down") eq_refl).
    destruct (run _ _); reflexivity.
Defined.

End AdapterExtras.
